(** * Protocol-buffer validator generator: model and properties

    A shallow embedding of the three Python sources

    - [scripts/ProtocolBufferValidation/Generator.py]
    - [scripts/ProtocolBufferValidation/CppGenerator.py]
    - [scripts/generate-protobuf-validator.py]

    Python functions become functions into a small monad [M] that threads
    the interpreter's observable state (the text written to standard output
    and the list of repository functions entered so far) and ends either
    with a returned value or with a raised exception.  The state survives a
    raised exception, as it does in Python. *)

From Stdlib Require Import String Ascii List Bool ZArith NArith Lia.
From Stdlib Require Import DecimalString.
Import ListNotations.

Local Open Scope string_scope.
Local Open Scope Z_scope.

(* ===================================================================== *)
(** ** Python strings *)
(* ===================================================================== *)

(** A Python [str] is modelled by a Rocq [string] whose characters are the
    code points 0..255 (ASCII and the Latin-1 supplement). *)

(** The double quote character (code point 34), which the Python sources
    write escaped inside their message literals. *)
Definition dquote : string := String "034"%char EmptyString.

(** The line terminator [print] appends. *)
Definition newline : string := String "010"%char EmptyString.

(** [str.lower] on one code point of the range 0..255: the upper-case
    letters are [A]..[Z] (65..90) and U+00C0..U+00DE without the
    multiplication sign U+00D7; each maps to the code point 32 above. *)
Definition lower_char (c : ascii) : ascii :=
  let n := N_of_ascii c in
  if (((65 <=? n) && (n <=? 90))
      || ((192 <=? n) && (n <=? 222) && negb (n =? 215)))%N
  then ascii_of_N (n + 32)
  else c.

(** [s.lower()] *)
Fixpoint lower (s : string) : string :=
  match s with
  | EmptyString => EmptyString
  | String c s' => String (lower_char c) (lower s')
  end.

(** [needle in hay] for two strings. *)
Fixpoint contains (needle hay : string) : bool :=
  prefix needle hay ||
  match hay with
  | EmptyString => false
  | String _ hay' => contains needle hay'
  end.

(** ["%d" % z] *)
Definition format_d (z : Z) : string := NilZero.string_of_int (Z.to_int z).

(* ===================================================================== *)
(** ** The schema model *)
(* ===================================================================== *)

Module Schema.

(** Modelled from the spec: the classes of [ProtoFile.py] and
    [FieldAnnotation.py], which the sources import but which are not part
    of the three files above.  Section 3 of the specification gives the
    data: a schema file owns an ordered sequence of messages, a message an
    ordered sequence of fields, a field a type kind and its annotations. *)
Inductive FieldKind : Type :=
| KInteger
| KFloat
| KString
| KBytes
| KMessageRef (target : string)
| KRepeated (element : FieldKind).

Inductive Annotation : Type :=
| RestrictAnnotation (constraint : string).

Record Field : Type := mkField {
  field_name : string;
  field_kind : FieldKind;
  field_annotations : list Annotation
}.

Record Message : Type := mkMessage {
  message_name : string;
  message_fields : list Field
}.

Record ProtoFile : Type := mkProtoFile {
  origin : string;
  messages : list Message
}.

Fixpoint distinct (l : list string) : bool :=
  match l with
  | [] => true
  | x :: l' => negb (existsb (String.eqb x) l') && distinct l'
  end.

Definition message_ok (m : Message) : bool :=
  negb (message_name m =? "")%string
  && distinct (map field_name (message_fields m)).

(** The invariants of section 3: message names unique in the file, every
    message named, field names unique in each message. *)
Definition well_formed (pf : ProtoFile) : bool :=
  distinct (map message_name (messages pf))
  && forallb message_ok (messages pf).

End Schema.

(* ===================================================================== *)
(** ** Python values, classes and exceptions *)
(* ===================================================================== *)

(** A class is known by its module, its name ([__name__]) and its method
    resolution order, a list of qualified names that starts with the class
    itself and ends with [builtins.object]. *)
Record PyClass : Type := mkClass {
  cls_module : string;
  cls_name : string;
  cls_mro : list string
}.

Definition qualname (c : PyClass) : string :=
  cls_module c ++ "." ++ cls_name c.

Definition object_q : string := "builtins.object".

Definition NoneType_class : PyClass :=
  mkClass "builtins" "NoneType" ["builtins.NoneType"; object_q].
Definition str_class : PyClass :=
  mkClass "builtins" "str" ["builtins.str"; object_q].
Definition int_class : PyClass :=
  mkClass "builtins" "int" ["builtins.int"; object_q].

(** [class ProtoFile] of the module [ProtoFile]. *)
Definition ProtoFile_class : PyClass :=
  mkClass "ProtoFile" "ProtoFile" ["ProtoFile.ProtoFile"; object_q].

(** [class Generator:] in [Generator.py]. *)
Definition Generator_class : PyClass :=
  mkClass "Generator" "Generator" ["Generator.Generator"; object_q].

(** [class CppGenerator(Generator):] in [CppGenerator.py]. *)
Definition CppGenerator_class : PyClass :=
  mkClass "CppGenerator" "CppGenerator"
          ["CppGenerator.CppGenerator"; "Generator.Generator"; object_q].

(** The values the three sources handle.  An instance carries its class
    and, when it is a schema object, the schema it holds. *)
Inductive PyValue : Type :=
| PyNone
| PyStr (s : string)
| PyInt (z : Z)
| PyInst (c : PyClass) (data : option Schema.ProtoFile).

(** [v.__class__] *)
Definition class_of (v : PyValue) : PyClass :=
  match v with
  | PyNone => NoneType_class
  | PyStr _ => str_class
  | PyInt _ => int_class
  | PyInst c _ => c
  end.

(** [isinstance(v, c)]: the class [c] occurs in the method resolution
    order of the class of [v]. *)
Definition isinstance (v : PyValue) (c : PyClass) : bool :=
  existsb (String.eqb (qualname c)) (cls_mro (class_of v)).

(** [repr] of a class object, which is what [print] shows for it. *)
Definition class_repr (c : PyClass) : string :=
  "<class '" ++ qualname c ++ "'>".

Inductive PyException : Type :=
| RuntimeError (msg : string)
| AttributeError (msg : string)
| SystemExit (code : Z).

(* ===================================================================== *)
(** ** The interpreter monad *)
(* ===================================================================== *)

(** What a run can be observed to have done: the text written to standard
    output, and the repository functions entered, oldest first. *)
Record World : Type := mkWorld {
  stdout : string;
  calls : list string
}.

Inductive Outcome (A : Type) : Type :=
| Returns (a : A)
| Raises (e : PyException).
Arguments Returns {A} a.
Arguments Raises {A} e.

Definition M (A : Type) : Type := World -> Outcome A * World.

Definition ret {A} (a : A) : M A := fun w => (Returns a, w).

Definition bind {A B} (m : M A) (k : A -> M B) : M B :=
  fun w =>
    match m w with
    | (Returns a, w') => k a w'
    | (Raises e, w') => (Raises e, w')
    end.

Definition raise {A} (e : PyException) : M A := fun w => (Raises e, w).

Declare Scope py_scope.
Delimit Scope py_scope with py.
Notation "x <- m ;; k" := (bind m (fun x => k))
  (at level 61, m at next level, right associativity) : py_scope.
Notation "m ;; k" := (bind m (fun _ => k))
  (at level 61, right associativity) : py_scope.
Local Open Scope py_scope.

(** [print(s)] for a string [s]; [print()] is [print ""]. *)
Definition print (s : string) : M unit :=
  fun w => (Returns tt, mkWorld (stdout w ++ s ++ newline) (calls w)).

(** Records that the body of the named function has been entered. *)
Definition enter (fname : string) : M unit :=
  fun w => (Returns tt, mkWorld (stdout w) (calls w ++ [fname])).

(** [sys.exit(code)] *)
Definition sys_exit {A} (code : Z) : M A := raise (SystemExit code).

(** The status the process ends with when the script's top level finishes
    with the given outcome: 0 after a normal end, the code of an uncaught
    [SystemExit] (for a code that fits a C [int], which the operating
    system reports modulo 256), and 1 after an uncaught [RuntimeError] or
    [AttributeError].  Exceptions outside [PyException], such as a
    [KeyboardInterrupt], are not covered. *)
Definition exit_status {A} (o : Outcome A) : Z :=
  match o with
  | Returns _ => 0
  | Raises (SystemExit code) => code mod 256
  | Raises _ => 1
  end.

(* ===================================================================== *)
(** ** [Generator.py] *)
(* ===================================================================== *)

Module Generator.

(** [def generateValidator(self, protoFile)] of the base class. *)
Definition generateValidator (self protoFile : PyValue) : M PyValue :=
  enter "Generator.generateValidator" ;;
  raise (RuntimeError
    "Not implemented - you have to call this function on a sub-class").

(** [CppGenerator()]: the class defines no [__init__]. *)
Definition new_CppGenerator : PyValue := PyInst CppGenerator_class None.

(** [@staticmethod def select(programmingLanguage)].  The parameter is
    rebound to its lower-case form on the first line, and it is the rebound
    name that the error message formats. *)
Definition select (programmingLanguage : string) : M PyValue :=
  enter "Generator.select" ;;
  let programmingLanguage := lower programmingLanguage in
  if ((programmingLanguage =? "cpp") || (programmingLanguage =? "c++"))%string
  then ret new_CppGenerator
  else raise (RuntimeError
         ("No generator known for language " ++ dquote
            ++ programmingLanguage ++ dquote)).

End Generator.

(* ===================================================================== *)
(** ** [CppGenerator.py] *)
(* ===================================================================== *)

Module CppGenerator.

(** [def generateValidator(self, protoFile)].  After the type test the body
    holds a comment only, so the call falls off the end and returns
    [None]. *)
Definition generateValidator (self protoFile : PyValue) : M PyValue :=
  enter "CppGenerator.generateValidator" ;;
  (if negb (isinstance protoFile ProtoFile_class)
   then raise (RuntimeError
          ("Expected object of type ProtoFile but got " ++ dquote
             ++ cls_name (class_of protoFile) ++ dquote))
   else ret tt) ;;
  ret PyNone.

End CppGenerator.

(** Attribute lookup of [generateValidator] along a method resolution
    order: the first class that defines the method wins. *)
Fixpoint resolve_generateValidator (mro : list string)
  : option (PyValue -> PyValue -> M PyValue) :=
  match mro with
  | [] => None
  | q :: rest =>
      if (q =? "CppGenerator.CppGenerator")%string
      then Some CppGenerator.generateValidator
      else if (q =? "Generator.Generator")%string
      then Some Generator.generateValidator
      else resolve_generateValidator rest
  end.

(** [gen.generateValidator(protoFile)] *)
Definition call_generateValidator (gen protoFile : PyValue) : M PyValue :=
  match resolve_generateValidator (cls_mro (class_of gen)) with
  | Some method => method gen protoFile
  | None =>
      raise (AttributeError
        ("'" ++ cls_name (class_of gen)
             ++ "' object has no attribute 'generateValidator'"))
  end.

(* ===================================================================== *)
(** ** [generate-protobuf-validator.py] *)
(* ===================================================================== *)

Section Driver.

(** [__file__], the path the script was started under. *)
Variable script_file : string.

(** [ProtoFile.fromFile], the parser of [ProtoFile.py]: any computation
    that returns a value or raises, and may write to standard output. *)
Variable ProtoFile_fromFile : string -> M PyValue.

(** [str] of an instance, as defined by its class. *)
Variable instance_str : PyClass -> option Schema.ProtoFile -> string.

(** [str(v)], which is what [print(v)] writes. *)
Definition py_str (v : PyValue) : string :=
  match v with
  | PyNone => "None"
  | PyStr s => s
  | PyInt z => format_d z
  | PyInst c data => instance_str c data
  end.

(** [def printHelp()] *)
Definition printHelp : M unit :=
  enter "printHelp" ;;
  print "Usage:" ;;
  print (script_file ++ " <pathToProtoFile>") ;;
  print "".

(** [sys.argv[1]], read only where [len(sys.argv) == 2]. *)
Definition argv1 (argv : list string) : string := nth 1 argv "".

(** The body of [if __name__ == "__main__":], run on [sys.argv]. *)
Definition main (argv : list string) : M unit :=
  (if negb (Z.of_nat (length argv) =? 2)
   then
     print ("[ERROR]: Invalid argument count ("
              ++ format_d (Z.of_nat (length argv) - 1) ++ ")") ;;
     printHelp ;;
     sys_exit 1
   else ret tt) ;;
  (if ((lower (argv1 argv) =? "-h")
       || (lower (argv1 argv) =? "--help"))%string
   then
     printHelp ;;
     sys_exit 0
   else ret tt) ;;
  let fileName := argv1 argv in
  protoFile <- ProtoFile_fromFile fileName ;;
  (match protoFile with
   | PyNone =>
       print "[ERROR]: Failed at parsing ProtoFile!" ;;
       sys_exit 1
   | _ => ret tt
   end) ;;
  print (py_str protoFile) ;;
  gen <- Generator.select "cpp" ;;
  print (class_repr (class_of gen)) ;;
  _ <- call_generateValidator gen protoFile ;;
  ret tt.

End Driver.

(* ===================================================================== *)
(** ** Sample data *)
(* ===================================================================== *)

(** A schema with the one message [User]: an integer [age] restricted to
    0..150 and an unrestricted string [name]. *)
Definition user_schema : Schema.ProtoFile :=
  Schema.mkProtoFile "user.proto"
    [ Schema.mkMessage "User"
        [ Schema.mkField "age" Schema.KInteger
            [Schema.RestrictAnnotation "min=0,max=150"];
          Schema.mkField "name" Schema.KString [] ] ].

Definition user_protofile : PyValue := PyInst ProtoFile_class (Some user_schema).

Definition empty_world : World := mkWorld "" [].

(** A parser that rejects every file, silently. *)
Definition failing_parser (fileName : string) : M PyValue := ret PyNone.

(** A parser that accepts every file as [user_schema]. *)
Definition user_parser (fileName : string) : M PyValue := ret user_protofile.

Definition sample_str (c : PyClass) (data : option Schema.ProtoFile) : string :=
  "<" ++ cls_name c ++ ">".


(** The text [printHelp] writes. *)
Definition usage_text (script_file : string) : string :=
  "Usage:" ++ newline ++ script_file ++ " <pathToProtoFile>" ++ newline
           ++ newline.

(** The message [Generator.select] raises for a language it does not know,
    given the identifier as the message shows it. *)
Definition unknown_language_message (shown : string) : string :=
  "No generator known for language " ++ dquote ++ shown ++ dquote.

(* ===================================================================== *)
(** ** [generate-protobuf-validator.py]: the import path *)
(* ===================================================================== *)

Section ScriptSetup.

(** [os.path.dirname] and [os.path.sep], which depend on the platform. *)
Variable dirname : string -> string.
Variable sep : string.

(** [currentDir] as line 13 reads it: the directory part of [__file__],
    replaced by ["."] when it is empty. *)
Definition currentDir (script_file : string) : string :=
  let currentDir := dirname script_file in
  if (currentDir =? "")%string then "." else currentDir.

(** [sys.path.insert(0, currentDir + os.path.sep +
    "ProtocolBufferValidation")], as a function of [sys.path]. *)
Definition setup_sys_path (script_file : string) (sys_path : list string)
  : list string :=
  (currentDir script_file ++ sep ++ "ProtocolBufferValidation") :: sys_path.

End ScriptSetup.

(* ===================================================================== *)
(** ** Further sample data *)
(* ===================================================================== *)

(** The test of line 31 on the one argument. *)
Definition is_help_flag (a : string) : bool :=
  ((lower a =? "-h") || (lower a =? "--help"))%string.

(** The identifiers [Generator.select] knows, in every spelling. *)
Definition known_spellings : list string :=
  ["cpp"; "cpP"; "cPp"; "cPP"; "Cpp"; "CpP"; "CPp"; "CPP"; "c++"; "C++"].

(** A parser that returns the name of the file it was given. *)
Definition echo_parser (fileName : string) : M PyValue :=
  ret (PyStr fileName).

(** A parser that writes a diagnostic and raises. *)
Definition raising_parser (fileName : string) : M PyValue :=
  print ("cannot read " ++ fileName) ;;
  raise (RuntimeError "parse error").

(** A parser that knows the one file [user.proto], under that spelling. *)
Definition picky_parser (fileName : string) : M PyValue :=
  if (fileName =? "user.proto")%string then ret user_protofile else ret PyNone.

(** A directory function for examples: [scripts] for a path below
    [scripts/], empty for any other. *)
Definition sample_dirname (path : string) : string :=
  if prefix "scripts/" path then "scripts" else "".

(* ===================================================================== *)
(** ** Strings: lemmas *)
(* ===================================================================== *)

Lemma append_assoc (a b c : string) : (a ++ b) ++ c = a ++ (b ++ c).
Proof.
  induction a as [|x a IH]; simpl; [reflexivity|].
  now rewrite IH.
Qed.

Lemma lower_char_idempotent (c : ascii) :
  lower_char (lower_char c) = lower_char c.
Proof.
  destruct c as [[] [] [] [] [] [] [] []]; reflexivity.
Qed.

Lemma lower_idempotent (s : string) : lower (lower s) = lower s.
Proof.
  induction s as [|c s IH]; simpl.
  - reflexivity.
  - rewrite lower_char_idempotent, IH. reflexivity.
Qed.

Lemma prefix_append (s t : string) : prefix s (s ++ t) = true.
Proof.
  induction s as [|c s IH]; simpl.
  - destruct t; reflexivity.
  - destruct (ascii_dec c c) as [_|Hne]; [exact IH | now elim Hne].
Qed.

Lemma contains_of_prefix (needle hay : string) :
  prefix needle hay = true -> contains needle hay = true.
Proof.
  intros H. destruct hay; unfold contains; fold contains; rewrite H;
    reflexivity.
Qed.

Lemma contains_here (s t : string) : contains s (s ++ t) = true.
Proof.
  apply contains_of_prefix, prefix_append.
Qed.

Lemma contains_skip (p needle hay : string) :
  contains needle hay = true -> contains needle (p ++ hay) = true.
Proof.
  intros H. induction p as [|c p IH]; simpl.
  - exact H.
  - rewrite IH. apply orb_true_r.
Qed.

Lemma contains_middle (p s q : string) : contains s (p ++ s ++ q) = true.
Proof.
  apply contains_skip, contains_here.
Qed.

(* ===================================================================== *)
(** ** [Generator.select]: lemmas *)
(* ===================================================================== *)

Lemma select_known (s : string) (w : World) :
  lower s = "cpp" \/ lower s = "c++" ->
  Generator.select s w
  = (Returns Generator.new_CppGenerator,
     mkWorld (stdout w) (calls w ++ ["Generator.select"])).
Proof.
  intros H. unfold Generator.select, bind, enter, ret. simpl.
  destruct H as [-> | ->]; reflexivity.
Qed.

Lemma select_unknown (s : string) (w : World) :
  lower s <> "cpp" -> lower s <> "c++" ->
  Generator.select s w
  = (Raises (RuntimeError (unknown_language_message (lower s))),
     mkWorld (stdout w) (calls w ++ ["Generator.select"])).
Proof.
  intros H1 H2. unfold Generator.select, bind, enter, raise. simpl.
  apply String.eqb_neq in H1, H2. rewrite H1, H2. reflexivity.
Qed.

(* ===================================================================== *)
(** ** [CppGenerator.generateValidator]: lemmas *)
(* ===================================================================== *)

Lemma cpp_generateValidator_accepts (self v : PyValue) (w : World) :
  isinstance v ProtoFile_class = true ->
  CppGenerator.generateValidator self v w
  = (Returns PyNone,
     mkWorld (stdout w) (calls w ++ ["CppGenerator.generateValidator"])).
Proof.
  intros H. unfold CppGenerator.generateValidator, bind, enter, ret, raise.
  simpl. rewrite H. reflexivity.
Qed.

Lemma cpp_generateValidator_rejects (self v : PyValue) (w : World) :
  isinstance v ProtoFile_class = false ->
  CppGenerator.generateValidator self v w
  = (Raises (RuntimeError
       ("Expected object of type ProtoFile but got " ++ dquote
          ++ cls_name (class_of v) ++ dquote)),
     mkWorld (stdout w) (calls w ++ ["CppGenerator.generateValidator"])).
Proof.
  intros H. unfold CppGenerator.generateValidator, bind, enter, ret, raise.
  simpl. rewrite H. reflexivity.
Qed.

Lemma cpp_generateValidator_silent (self v : PyValue) (w : World) :
  stdout (snd (CppGenerator.generateValidator self v w)) = stdout w.
Proof.
  destruct (isinstance v ProtoFile_class) eqn:E.
  - rewrite cpp_generateValidator_accepts by exact E. reflexivity.
  - rewrite cpp_generateValidator_rejects by exact E. reflexivity.
Qed.

(* ===================================================================== *)
(** ** Properties of the generator registry *)
(* ===================================================================== *)

(** C2, as the specification words it: every identifier that matches no
    registered language makes [Generator.select] fail with a message that
    includes the identifier in its original case.  This is false: [select]
    formats the lower-cased identifier, so for ["Java"] the message reads
    [No generator known for language "java"] and ["Java"] occurs nowhere
    in it. *)
Lemma select_original_case_refuted :
  ~ (forall (s : string) (w : World),
        lower s <> "cpp" -> lower s <> "c++" ->
        exists msg w',
          Generator.select s w = (Raises (RuntimeError msg), w')
          /\ contains s msg = true).
Proof.
  intros H.
  destruct (H "Java" empty_world) as (msg & w' & Hsel & Hin);
    try discriminate.
  vm_compute in Hsel. inversion Hsel; subst msg.
  vm_compute in Hin. discriminate.
Qed.

(** C2, amended: for every string [s] whose lower-case form is neither
    ["cpp"] nor ["c++"], [Generator.select s] raises the [RuntimeError]
    that the specification calls UnknownLanguage, writes nothing, and its
    message is [No generator known for language "..."] around the
    lower-cased identifier, which it therefore includes. *)
Theorem select_unknown_reports_lowercase (s : string) (w : World) :
  lower s <> "cpp" -> lower s <> "c++" ->
  exists msg,
    Generator.select s w
    = (Raises (RuntimeError msg),
       mkWorld (stdout w) (calls w ++ ["Generator.select"]))
    /\ msg = unknown_language_message (lower s)
    /\ contains (lower s) msg = true.
Proof.
  intros H1 H2. exists (unknown_language_message (lower s)).
  split; [apply select_unknown; assumption|].
  split; [reflexivity|].
  unfold unknown_language_message.
  rewrite <- append_assoc. apply contains_middle.
Qed.

(** The amended C2 at the identifier ["Java"]. *)
Lemma select_unknown_reports_lowercase_witness :
  exists msg,
    Generator.select "Java" empty_world
    = (Raises (RuntimeError msg), mkWorld "" ["Generator.select"])
    /\ msg = unknown_language_message "java"
    /\ contains "java" msg = true.
Proof.
  apply (select_unknown_reports_lowercase "Java" empty_world);
    vm_compute; discriminate.
Defined.

(** C3: [Generator.select] is case-insensitive.  For every string [s] the
    call [select(s)] has the outcome and the effects of [select(s.lower())],
    error message included; and [select("CPP")], [select("cpp")] and
    [select("C++")] each return an instance of the one class
    [CppGenerator]. *)
Theorem select_case_insensitive :
  (forall (s : string) (w : World),
      Generator.select s w = Generator.select (lower s) w)
  /\ (forall w : World,
         fst (Generator.select "CPP" w) = Returns Generator.new_CppGenerator
         /\ fst (Generator.select "cpp" w) = Returns Generator.new_CppGenerator
         /\ fst (Generator.select "C++" w) = Returns Generator.new_CppGenerator)
  /\ class_of Generator.new_CppGenerator = CppGenerator_class.
Proof.
  split; [|split].
  - intros s w. unfold Generator.select.
    rewrite lower_idempotent. reflexivity.
  - intros w. repeat split; rewrite select_known; auto.
  - reflexivity.
Qed.

(** C6: [Generator.select("java")] fails with the [RuntimeError] that the
    specification calls UnknownLanguage, and the message contains the
    substring ["java"]. *)
Theorem select_java_fails (w : World) :
  exists msg,
    fst (Generator.select "java" w) = Raises (RuntimeError msg)
    /\ msg = unknown_language_message "java"
    /\ contains "java" msg = true.
Proof.
  exists (unknown_language_message "java").
  rewrite select_unknown by (vm_compute; discriminate).
  repeat split.
Qed.

(* ===================================================================== *)
(** ** Properties of [generateValidator] *)
(* ===================================================================== *)

(** C1, evaluated on the code: [user_schema] is a well-formed schema with
    one message, and [user_protofile] is an instance of [ProtoFile] that
    holds it; yet [CppGenerator.generateValidator] returns [None] for it
    and writes nothing.  No validation unit is emitted for the message
    [User]: the loop over the messages is the comment that ends the
    method. *)
Theorem cpp_generateValidator_emits_nothing (self : PyValue) (w : World) :
  Schema.well_formed user_schema = true
  /\ map Schema.message_name (Schema.messages user_schema) = ["User"]
  /\ isinstance user_protofile ProtoFile_class = true
  /\ CppGenerator.generateValidator self user_protofile w
     = (Returns PyNone,
        mkWorld (stdout w) (calls w ++ ["CppGenerator.generateValidator"])).
Proof.
  repeat split.
Qed.

(** C4: [CppGenerator.generateValidator] fails exactly when its argument is
    not an instance of [ProtoFile]; the failure is the [RuntimeError] that
    the specification calls InvalidInput, it names the class of the
    argument, and whether the call fails or not, nothing has been written
    to the output when it ends. *)
Theorem cpp_generateValidator_fails_iff_not_ProtoFile
  (self v : PyValue) (w : World) :
  ((exists e, fst (CppGenerator.generateValidator self v w) = Raises e)
   <-> isinstance v ProtoFile_class = false)
  /\ (fst (CppGenerator.generateValidator self v w)
      = Raises (RuntimeError
          ("Expected object of type ProtoFile but got " ++ dquote
             ++ cls_name (class_of v) ++ dquote))
      <-> isinstance v ProtoFile_class = false)
  /\ stdout (snd (CppGenerator.generateValidator self v w)) = stdout w.
Proof.
  split; [|split].
  - destruct (isinstance v ProtoFile_class) eqn:E.
    + rewrite cpp_generateValidator_accepts by exact E. simpl.
      split; [intros [e He]; discriminate | discriminate].
    + rewrite cpp_generateValidator_rejects by exact E. simpl.
      split; [reflexivity | intros _; eexists; reflexivity].
  - destruct (isinstance v ProtoFile_class) eqn:E.
    + rewrite cpp_generateValidator_accepts by exact E. simpl.
      split; discriminate.
    + rewrite cpp_generateValidator_rejects by exact E. simpl.
      split; reflexivity.
  - apply cpp_generateValidator_silent.
Qed.



(** C9: [generateValidator] of the base class [Generator] raises a
    [RuntimeError] for every receiver and every argument, an instance of
    [ProtoFile] included; so does the call [gen.generateValidator(x)] on
    an instance [gen] of the base class itself. *)
Theorem base_generateValidator_always_raises (self v : PyValue) (w : World) :
  fst (Generator.generateValidator self v w)
  = Raises (RuntimeError
      "Not implemented - you have to call this function on a sub-class")
  /\ fst (Generator.generateValidator self user_protofile w)
     = Raises (RuntimeError
         "Not implemented - you have to call this function on a sub-class")
  /\ fst (call_generateValidator (PyInst Generator_class None) v w)
     = Raises (RuntimeError
         "Not implemented - you have to call this function on a sub-class").
Proof.
  repeat split.
Qed.

(* ===================================================================== *)
(** ** Properties of the driver *)
(* ===================================================================== *)

Section DriverProperties.

Variable script_file : string.
Variable ProtoFile_fromFile : string -> M PyValue.
Variable instance_str : PyClass -> option Schema.ProtoFile -> string.

Local Abbreviation usage := (printHelp script_file).
Local Abbreviation driver := (main script_file ProtoFile_fromFile instance_str).

Lemma printHelp_run (w : World) :
  usage w
  = (Returns tt,
     mkWorld (stdout w ++ usage_text script_file)
             (calls w ++ ["printHelp"])).
Proof.
  unfold printHelp, bind, enter, print, usage_text.
  simpl. f_equal. f_equal.
  rewrite !append_assoc. reflexivity.
Qed.

(** With two entries in [sys.argv] the first test of the driver is
    passed without effect. *)
Lemma main_two_arguments (prog a : string) (w : World) :
  driver [prog; a] w
  = ((if ((lower a =? "-h") || (lower a =? "--help"))%string
      then usage ;; sys_exit 0
      else ret tt) ;;
     protoFile <- ProtoFile_fromFile a ;;
     (match protoFile with
      | PyNone =>
          print "[ERROR]: Failed at parsing ProtoFile!" ;;
          sys_exit 1
      | _ => ret tt
      end) ;;
     print (py_str instance_str protoFile) ;;
     gen <- Generator.select "cpp" ;;
     print (class_repr (class_of gen)) ;;
     _ <- call_generateValidator gen protoFile ;;
     ret tt) w.
Proof.
  reflexivity.
Qed.

(** What the driver does once the parser has returned a schema object:
    it prints the object, selects the C++ generator, prints its class and
    runs the generation. *)
Lemma main_after_successful_parse
  (prog a : string) (c : PyClass) (data : option Schema.ProtoFile)
  (w w' : World) :
  lower a <> "-h" -> lower a <> "--help" ->
  ProtoFile_fromFile a w = (Returns (PyInst c data), w') ->
  isinstance (PyInst c data) ProtoFile_class = true ->
  driver [prog; a] w
  = (Returns tt,
     mkWorld (stdout w' ++ instance_str c data ++ newline
                ++ "<class 'CppGenerator.CppGenerator'>" ++ newline)
             (calls w' ++ ["Generator.select";
                           "CppGenerator.generateValidator"])).
Proof.
  intros H1 H2 Hparse Hinst. rewrite main_two_arguments.
  apply String.eqb_neq in H1, H2.
  unfold bind at 1. rewrite H1, H2. simpl.
  unfold bind at 1. rewrite Hparse.
  unfold bind at 1. simpl.
  unfold bind at 1. simpl.
  unfold bind at 1. rewrite select_known by (left; reflexivity).
  unfold bind at 1. simpl.
  unfold bind at 1. unfold call_generateValidator. simpl.
  rewrite cpp_generateValidator_accepts by exact Hinst. simpl.
  rewrite !append_assoc, <- app_assoc. reflexivity.
Qed.

(** C8: whenever the number of command-line arguments, which is
    [len(sys.argv) - 1], differs from one, the driver prints the line
    [[ERROR]: Invalid argument count (n)] and the usage text, and exits
    with status 1. *)
Theorem wrong_argument_count_exits_1 (argv : list string) (w : World) :
  Z.of_nat (length argv) - 1 <> 1 ->
  driver argv w
  = (Raises (SystemExit 1),
     mkWorld (stdout w ++ "[ERROR]: Invalid argument count ("
                ++ format_d (Z.of_nat (length argv) - 1) ++ ")" ++ newline
                ++ usage_text script_file)
             (calls w ++ ["printHelp"]))
  /\ exit_status (fst (driver argv w)) = 1.
Proof.
  intros Hn.
  assert (Htest : (Z.of_nat (length argv) =? 2) = false)
    by (apply Z.eqb_neq; lia).
  assert (Hrun : driver argv w
    = (Raises (SystemExit 1),
       mkWorld (stdout w ++ "[ERROR]: Invalid argument count ("
                  ++ format_d (Z.of_nat (length argv) - 1) ++ ")" ++ newline
                  ++ usage_text script_file)
               (calls w ++ ["printHelp"]))).
  { unfold main. unfold bind at 1. rewrite Htest.
    cbn [negb]. unfold bind at 1. unfold print at 1.
    unfold bind at 1. rewrite printHelp_run.
    unfold sys_exit, raise. cbn [stdout calls].
    rewrite !append_assoc. reflexivity. }
  rewrite Hrun. split; reflexivity.
Qed.

(** C10: the help flag is matched case-insensitively.  For every single
    argument whose lower-case form is ["-h"] or ["--help"] the driver
    prints the usage text, and nothing else, and exits with status 0. *)
Theorem help_flag_case_insensitive (prog a : string) (w : World) :
  lower a = "-h" \/ lower a = "--help" ->
  driver [prog; a] w
  = (Raises (SystemExit 0),
     mkWorld (stdout w ++ usage_text script_file)
             (calls w ++ ["printHelp"]))
  /\ exit_status (fst (driver [prog; a] w)) = 0.
Proof.
  intros H.
  assert (Htest : ((lower a =? "-h") || (lower a =? "--help"))%string
                  = true)
    by (destruct H as [-> | ->]; reflexivity).
  assert (Hrun : driver [prog; a] w
    = (Raises (SystemExit 0),
       mkWorld (stdout w ++ usage_text script_file)
               (calls w ++ ["printHelp"]))).
  { rewrite main_two_arguments. unfold bind at 1. rewrite Htest.
    unfold bind at 1. rewrite printHelp_run. reflexivity. }
  rewrite Hrun. split; reflexivity.
Qed.

(** C7: when the parser returns no schema ([None]) for the one argument,
    the driver prints [[ERROR]: Failed at parsing ProtoFile!] and exits
    with status 1.  Between the return of the parser and the exit it
    enters no function: neither [Generator.select] nor a
    [generateValidator] is called. *)
Theorem parse_failure_exits_1 (prog a : string) (w w' : World) :
  lower a <> "-h" -> lower a <> "--help" ->
  ProtoFile_fromFile a w = (Returns PyNone, w') ->
  driver [prog; a] w
  = (Raises (SystemExit 1),
     mkWorld (stdout w' ++ "[ERROR]: Failed at parsing ProtoFile!"
                ++ newline)
             (calls w'))
  /\ exit_status (fst (driver [prog; a] w)) = 1
  /\ calls (snd (driver [prog; a] w)) = calls w'.
Proof.
  intros H1 H2 Hparse.
  apply String.eqb_neq in H1, H2.
  assert (Hrun : driver [prog; a] w
    = (Raises (SystemExit 1),
       mkWorld (stdout w' ++ "[ERROR]: Failed at parsing ProtoFile!"
                  ++ newline)
               (calls w'))).
  { rewrite main_two_arguments. unfold bind at 1. rewrite H1, H2. simpl.
    unfold bind at 1. rewrite Hparse. reflexivity. }
  rewrite Hrun. repeat split.
Qed.

End DriverProperties.

(* ===================================================================== *)
(** ** The driver on concrete command lines *)
(* ===================================================================== *)

(** C8 with two arguments after the script name. *)
Lemma wrong_argument_count_exits_1_witness :
  Z.of_nat (length ["gen.py"; "a.proto"; "b.proto"]) - 1 <> 1
  /\ main "gen.py" user_parser sample_str
          ["gen.py"; "a.proto"; "b.proto"] empty_world
     = (Raises (SystemExit 1),
        mkWorld ("[ERROR]: Invalid argument count (2)" ++ newline
                   ++ usage_text "gen.py")
                ["printHelp"])
  /\ exit_status
       (fst (main "gen.py" user_parser sample_str
                  ["gen.py"; "a.proto"; "b.proto"] empty_world)) = 1.
Proof.
  split; [simpl; lia|].
  apply (wrong_argument_count_exits_1 "gen.py" user_parser sample_str
           ["gen.py"; "a.proto"; "b.proto"] empty_world).
  simpl; lia.
Defined.

(** C10 with the flag in upper case. *)
Lemma help_flag_case_insensitive_witness :
  (lower "--HELP" = "-h" \/ lower "--HELP" = "--help")
  /\ main "gen.py" user_parser sample_str ["gen.py"; "--HELP"] empty_world
     = (Raises (SystemExit 0), mkWorld (usage_text "gen.py") ["printHelp"])
  /\ exit_status
       (fst (main "gen.py" user_parser sample_str
                  ["gen.py"; "--HELP"] empty_world)) = 0.
Proof.
  split; [right; reflexivity|].
  apply (help_flag_case_insensitive "gen.py" user_parser sample_str
           "gen.py" "--HELP" empty_world).
  right; reflexivity.
Defined.

(** C7 with a parser that returns [None]. *)
Lemma parse_failure_exits_1_witness :
  main "gen.py" failing_parser sample_str ["gen.py"; "bad.proto"] empty_world
  = (Raises (SystemExit 1),
     mkWorld ("[ERROR]: Failed at parsing ProtoFile!" ++ newline) [])
  /\ exit_status
       (fst (main "gen.py" failing_parser sample_str
                  ["gen.py"; "bad.proto"] empty_world)) = 1
  /\ calls (snd (main "gen.py" failing_parser sample_str
                      ["gen.py"; "bad.proto"] empty_world)) = [].
Proof.
  apply (parse_failure_exits_1 "gen.py" failing_parser sample_str
           "gen.py" "bad.proto" empty_world empty_world).
  - vm_compute; discriminate.
  - vm_compute; discriminate.
  - reflexivity.
Defined.

(** The same command line with a parser that succeeds: here the generator
    is selected and run, and the list of entered functions shows it. *)
Example successful_run :
  main "gen.py" user_parser sample_str ["gen.py"; "user.proto"] empty_world
  = (Returns tt,
     mkWorld ("<ProtoFile>" ++ newline
                ++ "<class 'CppGenerator.CppGenerator'>" ++ newline)
             ["Generator.select"; "CppGenerator.generateValidator"]).
Proof.
  reflexivity.
Qed.

(* ===================================================================== *)
(** ** The runs of the driver, path by path *)
(* ===================================================================== *)

Section DriverRuns.

Variable script_file : string.
Variable ProtoFile_fromFile : string -> M PyValue.
Variable instance_str : PyClass -> option Schema.ProtoFile -> string.

Local Abbreviation driver := (main script_file ProtoFile_fromFile instance_str).

(** The text the driver has written once it has printed the parsed object
    and the class of the generator. *)
Local Abbreviation report v :=
  (py_str instance_str v ++ newline
     ++ "<class 'CppGenerator.CppGenerator'>" ++ newline).

Lemma run_wrong_count (argv : list string) (w : World) :
  length argv <> 2%nat ->
  fst (driver argv w) = Raises (SystemExit 1).
Proof.
  intros Hn. unfold main.
  assert (Htest : (Z.of_nat (length argv) =? 2) = false)
    by (apply Z.eqb_neq; lia).
  unfold bind at 1. rewrite Htest. cbn [negb].
  unfold bind at 1. unfold print at 1.
  unfold bind at 1. rewrite printHelp_run. reflexivity.
Qed.

Lemma run_help (prog a : string) (w : World) :
  is_help_flag a = true ->
  driver [prog; a] w
  = (Raises (SystemExit 0),
     mkWorld (stdout w ++ usage_text script_file) (calls w ++ ["printHelp"])).
Proof.
  intros H. unfold is_help_flag in H.
  rewrite main_two_arguments. unfold bind at 1. rewrite H.
  unfold bind at 1. rewrite printHelp_run. reflexivity.
Qed.

(** Past the help test, the run is the parser's run followed by what the
    driver makes of its outcome. *)
Lemma run_parse (prog a : string) (w : World) :
  is_help_flag a = false ->
  driver [prog; a] w
  = match ProtoFile_fromFile a w with
    | (Raises e, w') => (Raises e, w')
    | (Returns PyNone, w') =>
        (Raises (SystemExit 1),
         mkWorld (stdout w' ++ "[ERROR]: Failed at parsing ProtoFile!"
                    ++ newline)
                 (calls w'))
    | (Returns v, w') =>
        (if isinstance v ProtoFile_class
         then Returns tt
         else Raises (RuntimeError
                ("Expected object of type ProtoFile but got " ++ dquote
                   ++ cls_name (class_of v) ++ dquote)),
         mkWorld (stdout w' ++ report v)
                 (calls w' ++ ["Generator.select";
                               "CppGenerator.generateValidator"]))
    end.
Proof.
  intros H. unfold is_help_flag in H.
  rewrite main_two_arguments. unfold bind at 1. rewrite H. simpl.
  unfold bind at 1.
  destruct (ProtoFile_fromFile a w) as [[v|e] w']; [|reflexivity].
  assert (Hgo : forall v0 : PyValue,
    (print (py_str instance_str v0) ;;
     gen <- Generator.select "cpp" ;;
     print (class_repr (class_of gen)) ;;
     _ <- call_generateValidator gen v0 ;;
     ret tt) w'
    = (if isinstance v0 ProtoFile_class
       then Returns tt
       else Raises (RuntimeError
              ("Expected object of type ProtoFile but got " ++ dquote
                 ++ cls_name (class_of v0) ++ dquote)),
       mkWorld (stdout w' ++ report v0)
               (calls w' ++ ["Generator.select";
                             "CppGenerator.generateValidator"]))).
  { intros v0. unfold bind at 1. unfold print at 1.
    unfold bind at 1. rewrite select_known by (left; reflexivity).
    unfold bind at 1. unfold print at 1. cbn [stdout calls].
    unfold bind at 1. unfold call_generateValidator.
    cbn [class_of Generator.new_CppGenerator cls_mro CppGenerator_class
         resolve_generateValidator String.eqb Ascii.eqb Bool.eqb].
    destruct (isinstance v0 ProtoFile_class) eqn:E.
    - rewrite cpp_generateValidator_accepts by exact E.
      cbn [stdout calls]. unfold ret.
      rewrite !append_assoc, <- app_assoc. reflexivity.
    - rewrite cpp_generateValidator_rejects by exact E.
      cbn [stdout calls].
      rewrite !append_assoc, <- app_assoc. reflexivity. }
  destruct v as [|s|z|c data].
  - reflexivity.
  - unfold bind at 1. cbn [ret]. apply Hgo.
  - unfold bind at 1. cbn [ret]. apply Hgo.
  - unfold bind at 1. cbn [ret]. apply Hgo.
Qed.

End DriverRuns.

(* ===================================================================== *)
(** ** Further properties of the registry *)
(* ===================================================================== *)

Lemma lower_char_is_c (x : ascii) :
  lower_char x = "c"%char -> x = "c"%char \/ x = "C"%char.
Proof.
  destruct x as [[] [] [] [] [] [] [] []]; vm_compute; intros H;
    try discriminate H; auto.
Qed.

Lemma lower_char_is_p (x : ascii) :
  lower_char x = "p"%char -> x = "p"%char \/ x = "P"%char.
Proof.
  destruct x as [[] [] [] [] [] [] [] []]; vm_compute; intros H;
    try discriminate H; auto.
Qed.

Lemma lower_char_is_plus (x : ascii) :
  lower_char x = "+"%char -> x = "+"%char.
Proof.
  destruct x as [[] [] [] [] [] [] [] []]; vm_compute; intros H;
    try discriminate H; auto.
Qed.

Lemma lower_three (s : string) (x y z : ascii) :
  lower s = String x (String y (String z EmptyString)) ->
  exists a b c,
    s = String a (String b (String c EmptyString))
    /\ lower_char a = x /\ lower_char b = y /\ lower_char c = z.
Proof.
  destruct s as [|a [|b [|c [|d s]]]]; simpl; intros H; try discriminate H.
  injection H as Ha Hb Hc. exists a, b, c. auto.
Qed.

Lemma known_spellings_lower (s : string) :
  In s known_spellings <-> lower s = "cpp" \/ lower s = "c++".
Proof.
  split.
  - unfold known_spellings. simpl.
    intros H. repeat (destruct H as [<- | H]; [vm_compute; auto|]).
    contradiction.
  - intros [H | H]; apply lower_three in H;
      destruct H as (a & b & c & -> & Ha & Hb & Hc).
    + apply lower_char_is_c in Ha. apply lower_char_is_p in Hb, Hc.
      destruct Ha as [-> | ->], Hb as [-> | ->], Hc as [-> | ->];
        unfold known_spellings; simpl; tauto.
    + apply lower_char_is_c in Ha. apply lower_char_is_plus in Hb, Hc.
      subst b c. destruct Ha as [-> | ->];
        unfold known_spellings; simpl; tauto.
Qed.

(** X5: [Generator.select] returns a generator exactly for the ten
    spellings of [cpp] and [c++] that differ in letter case only, and for
    no other identifier; whether it returns or raises, it writes nothing
    to the output. *)
Theorem select_accepts_exactly_known_spellings (s : string) (w : World) :
  ((exists g, fst (Generator.select s w) = Returns g)
   <-> In s known_spellings)
  /\ stdout (snd (Generator.select s w)) = stdout w.
Proof.
  rewrite known_spellings_lower.
  destruct (string_dec (lower s) "cpp") as [H1 | H1];
    [|destruct (string_dec (lower s) "c++") as [H2 | H2]].
  - rewrite select_known by auto. simpl.
    split; [|reflexivity]. split; [auto | eexists; reflexivity].
  - rewrite select_known by auto. simpl.
    split; [|reflexivity]. split; [auto | eexists; reflexivity].
  - rewrite select_unknown by assumption. simpl.
    split; [|reflexivity].
    split; [intros [g Hg]; discriminate Hg | intros [H | H]; contradiction].
Qed.

(** X6: whatever identifier it was selected by, a generator that
    [Generator.select] returned answers [gen.generateValidator(x)] with the
    method of [CppGenerator]; the base method, which only raises
    [Not implemented], is never reached through it. *)
Theorem selected_generator_overrides_base
  (s : string) (w w' : World) (gen : PyValue) :
  Generator.select s w = (Returns gen, w') ->
  forall (x : PyValue) (w2 : World),
    call_generateValidator gen x w2 = CppGenerator.generateValidator gen x w2
    /\ fst (call_generateValidator gen x w2)
       <> Raises (RuntimeError
            "Not implemented - you have to call this function on a sub-class").
Proof.
  intros Hsel x w2.
  assert (Hgen : gen = Generator.new_CppGenerator).
  { destruct (string_dec (lower s) "cpp") as [H1 | H1];
      [|destruct (string_dec (lower s) "c++") as [H2 | H2]].
    - rewrite select_known in Hsel by auto. now inversion Hsel.
    - rewrite select_known in Hsel by auto. now inversion Hsel.
    - rewrite select_unknown in Hsel by assumption. discriminate Hsel. }
  subst gen. split; [reflexivity|].
  change (call_generateValidator Generator.new_CppGenerator x w2)
    with (CppGenerator.generateValidator Generator.new_CppGenerator x w2).
  destruct (isinstance x ProtoFile_class) eqn:E.
  - rewrite cpp_generateValidator_accepts by exact E. discriminate.
  - rewrite cpp_generateValidator_rejects by exact E. simpl.
    intros H. inversion H.
Qed.

(** X6 at the spelling [C++], called on [user_protofile]. *)
Lemma selected_generator_overrides_base_witness :
  call_generateValidator Generator.new_CppGenerator user_protofile empty_world
  = CppGenerator.generateValidator Generator.new_CppGenerator user_protofile
      empty_world
  /\ fst (call_generateValidator Generator.new_CppGenerator user_protofile
            empty_world)
     <> Raises (RuntimeError
          "Not implemented - you have to call this function on a sub-class").
Proof.
  refine (selected_generator_overrides_base "C++" empty_world
            (mkWorld "" ["Generator.select"]) Generator.new_CppGenerator
            _ user_protofile empty_world).
  reflexivity.
Defined.

(* ===================================================================== *)
(** ** The import path *)
(* ===================================================================== *)




(* ===================================================================== *)
(** ** Further properties of the driver *)
(* ===================================================================== *)

Section DriverBehaviour.

Variable script_file : string.
Variable ProtoFile_fromFile : string -> M PyValue.
Variable instance_str : PyClass -> option Schema.ProtoFile -> string.

Local Abbreviation driver := (main script_file ProtoFile_fromFile instance_str).

(** X1: when the one argument is no help flag and the parser returns an
    instance of [ProtoFile], the driver prints the object and the line
    [<class 'CppGenerator.CppGenerator'>], enters [Generator.select] and
    then [CppGenerator.generateValidator], writes nothing more (no
    generated code), and ends normally with status 0. *)
Theorem driver_success_run (prog a : string) (v : PyValue) (w w' : World) :
  is_help_flag a = false ->
  ProtoFile_fromFile a w = (Returns v, w') ->
  isinstance v ProtoFile_class = true ->
  driver [prog; a] w
  = (Returns tt,
     mkWorld (stdout w' ++ py_str instance_str v ++ newline
                ++ "<class 'CppGenerator.CppGenerator'>" ++ newline)
             (calls w' ++ ["Generator.select";
                           "CppGenerator.generateValidator"]))
  /\ exit_status (fst (driver [prog; a] w)) = 0.
Proof.
  intros Hh Hp Hi. rewrite run_parse by exact Hh. rewrite Hp.
  destruct v as [|s|z|c data]; try discriminate Hi.
  rewrite Hi. split; reflexivity.
Qed.

(** X2: when the parser returns a value that is neither [None] nor an
    instance of [ProtoFile], the driver still prints the value, selects the
    generator and prints its class; the run then ends in the
    [RuntimeError] of [CppGenerator.generateValidator] that names the class
    of the value, with status 1. *)
Theorem driver_rejects_foreign_object
  (prog a : string) (v : PyValue) (w w' : World) :
  is_help_flag a = false ->
  ProtoFile_fromFile a w = (Returns v, w') ->
  v <> PyNone ->
  isinstance v ProtoFile_class = false ->
  driver [prog; a] w
  = (Raises (RuntimeError
       ("Expected object of type ProtoFile but got " ++ dquote
          ++ cls_name (class_of v) ++ dquote)),
     mkWorld (stdout w' ++ py_str instance_str v ++ newline
                ++ "<class 'CppGenerator.CppGenerator'>" ++ newline)
             (calls w' ++ ["Generator.select";
                           "CppGenerator.generateValidator"]))
  /\ exit_status (fst (driver [prog; a] w)) = 1.
Proof.
  intros Hh Hp Hn Hi. rewrite run_parse by exact Hh. rewrite Hp.
  destruct v as [|s|z|c data]; [now elim Hn | | |];
    rewrite Hi; split; reflexivity.
Qed.

(** X3: the driver does not catch what the parser raises.  The exception
    leaves the script as it is, nothing is printed after it, and no
    generator is selected. *)
Theorem driver_propagates_parser_exception
  (prog a : string) (e : PyException) (w w' : World) :
  is_help_flag a = false ->
  ProtoFile_fromFile a w = (Raises e, w') ->
  driver [prog; a] w = (Raises e, w').
Proof.
  intros Hh Hp. rewrite run_parse by exact Hh. rewrite Hp. reflexivity.
Qed.

(** X4: the exit status of the driver.  Whenever the parser, asked about
    the argument, returns a value and does not raise, the run ends with
    status 0 or 1, and it ends with 0 exactly when there is one argument
    that is either a help flag or a file for which the parser returns an
    instance of [ProtoFile].  The statuses that occur are those of the
    driver's own [sys.exit(0)] and [sys.exit(1)], of a normal end, and of
    the [RuntimeError] of [CppGenerator.generateValidator]. *)
Theorem driver_exit_status (argv : list string) (w : World) :
  (forall e, fst (ProtoFile_fromFile (argv1 argv) w) <> Raises e) ->
  (exit_status (fst (driver argv w)) = 0
   \/ exit_status (fst (driver argv w)) = 1)
  /\ (exit_status (fst (driver argv w)) = 0
      <-> length argv = 2%nat
          /\ (is_help_flag (argv1 argv) = true
              \/ exists v,
                   fst (ProtoFile_fromFile (argv1 argv) w) = Returns v
                   /\ isinstance v ProtoFile_class = true)).
Proof.
  intros Hreturns.
  destruct (Nat.eq_dec (length argv) 2) as [Hlen | Hlen].
  2:{ rewrite run_wrong_count by exact Hlen. simpl.
      split; [right; reflexivity|].
      split; [discriminate | intros [H _]; contradiction]. }
  destruct argv as [|prog [|a [|b rest]]]; try discriminate Hlen.
  unfold argv1 in *. cbn [nth] in *.
  destruct (is_help_flag a) eqn:Hh.
  { rewrite run_help by exact Hh. simpl.
    split; [left; reflexivity|].
    split; [intros _; split; [reflexivity | left; reflexivity]
           | reflexivity]. }
  rewrite run_parse by exact Hh.
  destruct (ProtoFile_fromFile a w) as [[v|e] w'] eqn:Hp.
  - destruct (isinstance v ProtoFile_class) eqn:Hi.
    + assert (Hv : v <> PyNone) by (intros ->; discriminate Hi).
      destruct v as [|s|z|c data]; [now elim Hv | | |]; simpl;
        (split; [left; reflexivity|]);
        (split; [intros _; split; [reflexivity|];
                 right; eexists; split; [reflexivity | exact Hi]
                | reflexivity]).
    + assert (Hno : ~ (2%nat = 2%nat
                       /\ (false = true
                           \/ exists v0,
                                fst (Returns (A:=PyValue) v, w') = Returns v0
                                /\ isinstance v0 ProtoFile_class = true))).
      { intros [_ [H | (v0 & Hv0 & Hi0)]]; [discriminate H|].
        simpl in Hv0. inversion Hv0; subst v0. congruence. }
      destruct v as [|s|z|c data]; simpl;
        (split; [right; reflexivity|]);
        (split; [discriminate | intros H; elim Hno; exact H]).
  - elim (Hreturns e). reflexivity.
Qed.

End DriverBehaviour.

(** X8: the driver asks the parser about one name only, the argument as it
    was typed (the lower-cased form serves the help test alone), and it
    never looks at [sys.argv[0]]: two parsers that agree on that name give
    the same run, under whatever name the script was started. *)
Theorem driver_reads_parser_at_argument
  (script_file : string) (parser1 parser2 : string -> M PyValue)
  (instance_str : PyClass -> option Schema.ProtoFile -> string)
  (prog1 prog2 a : string) (w : World) :
  parser1 a w = parser2 a w ->
  main script_file parser1 instance_str [prog1; a] w
  = main script_file parser2 instance_str [prog2; a] w.
Proof.
  intros H. destruct (is_help_flag a) eqn:Hh.
  - rewrite !run_help by exact Hh. reflexivity.
  - rewrite !run_parse by exact Hh. rewrite H. reflexivity.
Qed.

(* ===================================================================== *)
(** ** Further runs on concrete command lines *)
(* ===================================================================== *)

(** X1 with a parser that returns [user_protofile]. *)
Lemma driver_success_run_witness :
  main "gen.py" user_parser sample_str ["gen.py"; "user.proto"] empty_world
  = (Returns tt,
     mkWorld ("<ProtoFile>" ++ newline
                ++ "<class 'CppGenerator.CppGenerator'>" ++ newline)
             ["Generator.select"; "CppGenerator.generateValidator"])
  /\ exit_status
       (fst (main "gen.py" user_parser sample_str
                  ["gen.py"; "user.proto"] empty_world)) = 0.
Proof.
  apply (driver_success_run "gen.py" user_parser sample_str
           "gen.py" "user.proto" user_protofile empty_world empty_world);
    reflexivity.
Defined.

(** X2 with a parser that returns a string. *)
Lemma driver_rejects_foreign_object_witness :
  main "gen.py" echo_parser sample_str ["gen.py"; "user.proto"] empty_world
  = (Raises (RuntimeError
       ("Expected object of type ProtoFile but got " ++ dquote
          ++ "str" ++ dquote)),
     mkWorld ("user.proto" ++ newline
                ++ "<class 'CppGenerator.CppGenerator'>" ++ newline)
             ["Generator.select"; "CppGenerator.generateValidator"])
  /\ exit_status
       (fst (main "gen.py" echo_parser sample_str
                  ["gen.py"; "user.proto"] empty_world)) = 1.
Proof.
  apply (driver_rejects_foreign_object "gen.py" echo_parser sample_str
           "gen.py" "user.proto" (PyStr "user.proto")
           empty_world empty_world);
    try reflexivity.
  discriminate.
Defined.

(** X3 with a parser that prints a diagnostic and raises. *)
Lemma driver_propagates_parser_exception_witness :
  main "gen.py" raising_parser sample_str ["gen.py"; "bad.proto"] empty_world
  = (Raises (RuntimeError "parse error"),
     mkWorld ("cannot read bad.proto" ++ newline) []).
Proof.
  apply (driver_propagates_parser_exception "gen.py" raising_parser
           sample_str "gen.py" "bad.proto" (RuntimeError "parse error")
           empty_world (mkWorld ("cannot read bad.proto" ++ newline) []));
    reflexivity.
Defined.

(** X4 on a command line whose file the parser rejects. *)
Lemma driver_exit_status_witness :
  (exit_status (fst (main "gen.py" picky_parser sample_str
                          ["gen.py"; "User.proto"] empty_world)) = 0
   \/ exit_status (fst (main "gen.py" picky_parser sample_str
                             ["gen.py"; "User.proto"] empty_world)) = 1)
  /\ (exit_status (fst (main "gen.py" picky_parser sample_str
                             ["gen.py"; "User.proto"] empty_world)) = 0
      <-> length ["gen.py"; "User.proto"] = 2%nat
          /\ (is_help_flag (argv1 ["gen.py"; "User.proto"]) = true
              \/ exists v,
                   fst (picky_parser (argv1 ["gen.py"; "User.proto"])
                                     empty_world) = Returns v
                   /\ isinstance v ProtoFile_class = true)).
Proof.
  apply (driver_exit_status "gen.py" picky_parser sample_str
           ["gen.py"; "User.proto"] empty_world).
  intros e. vm_compute. discriminate.
Defined.

(** X8 with two parsers that agree on [user.proto] and differ elsewhere. *)
Lemma driver_reads_parser_at_argument_witness :
  main "gen.py" user_parser sample_str ["gen.py"; "user.proto"] empty_world
  = main "gen.py" picky_parser sample_str ["./gen.py"; "user.proto"]
         empty_world.
Proof.
  apply (driver_reads_parser_at_argument "gen.py" user_parser picky_parser
           sample_str "gen.py" "./gen.py" "user.proto" empty_world).
  reflexivity.
Defined.

(** The import path for a script started as [gen.py] and as
    [scripts/gen.py]. *)
Example search_path_samples :
  setup_sys_path sample_dirname "/" "gen.py" ["/usr/lib/python3"]
  = ["./ProtocolBufferValidation"; "/usr/lib/python3"]
  /\ setup_sys_path sample_dirname "/" "scripts/gen.py" ["/usr/lib/python3"]
     = ["scripts/ProtocolBufferValidation"; "/usr/lib/python3"].
Proof.
  split; reflexivity.
Qed.
